(** * Position and capital accounting of the backtest (account.py)

    A shallow embedding of the [PositionManager] class of [account.py] and
    the proofs of its accounting properties.

    Modelling choices.
    - A Python [int] is a [Z].
    - A [decimal.Decimal] is a canonical rational [Qc]: the finite values
      with exact arithmetic.  The precision of the decimal context (28
      significant digits by default), the special values and the overflow
      trap are outside the model.
    - A Python [float] is kept symbolic: [float_of d] is the double that
      [float(d)] returns; binary rounding is not modelled.
    - A method of the class is a function from the object before the call to
      an [outcome]: the returned value or the raised exception, each with
      the object as the call leaves it. *)

From Stdlib Require Import ZArith QArith Qcanon List String Bool Lia.
Import ListNotations.

Open Scope Z_scope.

(** ** Numbers *)

Abbreviation Decimal := Qc (only parsing).

(** [Decimal(n)] for an integer [n]; also the conversion that
    [Decimal * int] and [Decimal / int] apply to their right operand. *)
Definition of_int (n : Z) : Decimal := Q2Qc (inject_Z n).

(** [x > y] on decimals. *)
Definition Decimal_gtb (x y : Decimal) : bool :=
  match (x ?= y)%Qc with
  | Gt => true
  | _ => false
  end.

(** The exceptions of the module: the two that the default decimal context
    raises on a division by zero, and the ValueError that [buy] and [sell]
    name after their early [return]. *)
Inductive exn : Type :=
| DivisionByZero
| InvalidOperation
| ValueError.

(** [x / n] for a decimal [x] and an integer [n]: [0 / 0] raises
    InvalidOperation, any other division by zero raises DivisionByZero. *)
Definition Decimal_truediv (x : Decimal) (n : Z) : exn + Decimal :=
  if n =? 0
  then (if Qc_eq_bool x 0 then inl InvalidOperation else inl DivisionByZero)
  else inr (x / of_int n)%Qc.

Inductive float : Type :=
| float_of (d : Decimal).

(** The literal [0.0]. *)
Definition float_zero : float := float_of 0%Qc.

(** A field annotated [float] that receives either a float or a decimal. *)
Inductive number : Type :=
| PyFloat (f : float)
| PyDecimal (d : Decimal).

Definition datetime : Type := Z.

(** ** Records *)

Module Trade.
Record t : Type := mk {
  time : datetime;
  action : string;
  price : float;
  quantity : Z;
  reason : string;
  profit : number
}.
End Trade.

Module TradeLog.
Record t : Type := mk {
  time : datetime;
  action : string;
  price : float;
  quantity : Z;
  reason : string;
  profit : number;
  position : Z;
  cost_price : float;
  market_value : float;
  available_capital : float;
  account_value : float;
  total_profit : float
}.
End TradeLog.

(** An element of [holdings]: the dict with keys time, price, quantity. *)
Module Holding.
Record t : Type := mk {
  time : datetime;
  price : Decimal;
  quantity : Z
}.
End Holding.

Record PositionManager : Type := mkPositionManager {
  position : Z;
  total_cost : Decimal;
  avg_cost_price : Decimal;
  trades : list Trade.t;
  holdings : list Holding.t;
  trade_logs : list TradeLog.t;
  last_price : Decimal;
  initial_capital : Decimal;
  available_capital : Decimal
}.

(** Attribute assignments [self.f = v]. *)
Definition set_position (v : Z) (self : PositionManager) : PositionManager :=
  mkPositionManager v (total_cost self) (avg_cost_price self) (trades self)
    (holdings self) (trade_logs self) (last_price self)
    (initial_capital self) (available_capital self).

Definition set_total_cost (v : Decimal) (self : PositionManager) : PositionManager :=
  mkPositionManager (position self) v (avg_cost_price self) (trades self)
    (holdings self) (trade_logs self) (last_price self)
    (initial_capital self) (available_capital self).

Definition set_avg_cost_price (v : Decimal) (self : PositionManager) : PositionManager :=
  mkPositionManager (position self) (total_cost self) v (trades self)
    (holdings self) (trade_logs self) (last_price self)
    (initial_capital self) (available_capital self).

Definition set_trades (v : list Trade.t) (self : PositionManager) : PositionManager :=
  mkPositionManager (position self) (total_cost self) (avg_cost_price self) v
    (holdings self) (trade_logs self) (last_price self)
    (initial_capital self) (available_capital self).

Definition set_holdings (v : list Holding.t) (self : PositionManager) : PositionManager :=
  mkPositionManager (position self) (total_cost self) (avg_cost_price self)
    (trades self) v (trade_logs self) (last_price self)
    (initial_capital self) (available_capital self).

Definition set_trade_logs (v : list TradeLog.t) (self : PositionManager) : PositionManager :=
  mkPositionManager (position self) (total_cost self) (avg_cost_price self)
    (trades self) (holdings self) v (last_price self)
    (initial_capital self) (available_capital self).

Definition set_last_price (v : Decimal) (self : PositionManager) : PositionManager :=
  mkPositionManager (position self) (total_cost self) (avg_cost_price self)
    (trades self) (holdings self) (trade_logs self) v
    (initial_capital self) (available_capital self).

Definition set_available_capital (v : Decimal) (self : PositionManager) : PositionManager :=
  mkPositionManager (position self) (total_cost self) (avg_cost_price self)
    (trades self) (holdings self) (trade_logs self) (last_price self)
    (initial_capital self) v.

(** ** Outcome of a method call *)

Inductive outcome (A : Type) : Type :=
| Returned (a : A) (self : PositionManager)
| Raised (e : exn) (self : PositionManager).

Arguments Returned {A} a self.
Arguments Raised {A} e self.

(** Continue with the value of a fallible expression, or leave the method
    with its exception and the object as it is at that point. *)
Definition or_raise {A B : Type} (r : exn + A) (self : PositionManager)
    (k : A -> outcome B) : outcome B :=
  match r with
  | inl e => Raised e self
  | inr a => k a
  end.

(** ** The class PositionManager *)

(** [__init__] *)
Definition init (initial_capital : Decimal) : PositionManager :=
  {| position := 0;
     total_cost := of_int 0;
     avg_cost_price := of_int 0;
     trades := [];
     holdings := [];
     trade_logs := [];
     last_price := of_int 0;
     initial_capital := initial_capital;
     available_capital := initial_capital |}.

Definition get_average_cost_price (self : PositionManager) : Decimal :=
  avg_cost_price self.

Definition get_market_value (self : PositionManager) : Decimal :=
  (last_price self * of_int (position self))%Qc.

Definition get_available_capital (self : PositionManager) : Decimal :=
  available_capital self.

Definition get_account_value (self : PositionManager) : Decimal :=
  (get_market_value self + available_capital self)%Qc.

Definition get_total_profit (self : PositionManager) : Decimal :=
  (get_account_value self - initial_capital self)%Qc.

Definition _log_trade (time : datetime) (action : string) (price : Decimal)
    (quantity : Z) (reason : string) (profit : number)
    (self : PositionManager) : PositionManager :=
  set_trade_logs
    (trade_logs self ++
     [ {| TradeLog.time := time;
          TradeLog.action := action;
          TradeLog.price := float_of price;
          TradeLog.quantity := quantity;
          TradeLog.reason := reason;
          TradeLog.profit := profit;
          TradeLog.position := position self;
          TradeLog.cost_price := float_of (get_average_cost_price self);
          TradeLog.market_value := float_of (price * of_int (position self))%Qc;
          TradeLog.available_capital := float_of (available_capital self);
          TradeLog.account_value := float_of (get_account_value self);
          TradeLog.total_profit := float_of (get_total_profit self) |} ])
    self.

Definition update_price (price : Decimal) (self : PositionManager)
    : outcome unit :=
  Returned tt (set_last_price price self).

Definition buy (time : datetime) (price : Decimal) (quantity : Z)
    (reason : string) (self : PositionManager) : outcome unit :=
  let cost := (price * of_int quantity)%Qc in
  if Decimal_gtb cost (available_capital self) then Returned tt self
  else
    let self := set_total_cost (total_cost self + cost)%Qc self in
    let self := set_position (position self + quantity) self in
    let self := set_last_price price self in
    let self := set_available_capital (available_capital self - cost)%Qc self in
    or_raise (Decimal_truediv (total_cost self) (position self)) self
      (fun avg =>
         let self := set_avg_cost_price avg self in
         let self :=
           set_holdings
             (holdings self ++
              [ {| Holding.time := time;
                   Holding.price := price;
                   Holding.quantity := quantity |} ])
             self in
         let trade :=
           {| Trade.time := time;
              Trade.action := "买入";
              Trade.price := float_of price;
              Trade.quantity := quantity;
              Trade.reason := reason;
              Trade.profit := PyFloat float_zero |} in
         let self := set_trades (trades self ++ [trade]) self in
         Returned tt
           (_log_trade time "买入" price quantity reason
              (PyFloat float_zero) self)).

(** One iteration of the loop of [_update_holdings] on the pair
    [(remaining, new_holdings)]. *)
Definition _update_holdings_iter (acc : Z * list Holding.t)
    (holding : Holding.t) : Z * list Holding.t :=
  let '(remaining, new_holdings) := acc in
  if remaining <=? 0 then (remaining, new_holdings ++ [holding])
  else if Holding.quantity holding <=? remaining
  then (remaining - Holding.quantity holding, new_holdings)
  else (0,
        new_holdings ++
        [ {| Holding.time := Holding.time holding;
             Holding.price := Holding.price holding;
             Holding.quantity := Holding.quantity holding - remaining |} ]).

Definition _update_holdings (quantity : Z) (self : PositionManager)
    : PositionManager :=
  let '(_, new_holdings) :=
    fold_left _update_holdings_iter (holdings self) (quantity, []) in
  set_holdings new_holdings self.

Definition sell (time : datetime) (price : Decimal) (quantity : Z)
    (reason : string) (self : PositionManager) : outcome Z :=
  if position self <? quantity then Returned 0 self
  else
    let self := set_total_cost (total_cost self - price * of_int quantity)%Qc self in
    let self := set_position (position self - quantity) self in
    let self := set_last_price price self in
    let self :=
      set_available_capital
        (available_capital self + price * of_int quantity)%Qc self in
    let profit := ((price - avg_cost_price self) * of_int quantity)%Qc in
    or_raise
      (if negb (position self =? 0)
       then Decimal_truediv (total_cost self) (position self)
       else inr price)
      self
      (fun avg =>
         let self := set_avg_cost_price avg self in
         let self := _update_holdings quantity self in
         let trade :=
           {| Trade.time := time;
              Trade.action := "卖出";
              Trade.price := float_of price;
              Trade.quantity := quantity;
              Trade.reason := reason;
              Trade.profit := PyFloat float_zero |} in
         let self := set_trades (trades self ++ [trade]) self in
         Returned 0
           (_log_trade time "卖出" price quantity reason
              (PyDecimal profit) self)).

(** ** Sequences of calls *)

Inductive call : Type :=
| Buy (time : datetime) (price : Decimal) (quantity : Z) (reason : string)
| Sell (time : datetime) (price : Decimal) (quantity : Z) (reason : string)
| UpdatePrice (price : Decimal).

(** Drop the returned value of a call. *)
Definition discard {A : Type} (o : outcome A) : outcome unit :=
  match o with
  | Returned _ self => Returned tt self
  | Raised e self => Raised e self
  end.

Definition perform (c : call) (self : PositionManager) : outcome unit :=
  match c with
  | Buy time price quantity reason => buy time price quantity reason self
  | Sell time price quantity reason =>
      discard (sell time price quantity reason self)
  | UpdatePrice price => update_price price self
  end.

(** The calls one after the other; an exception ends the sequence. *)
Fixpoint run (cs : list call) (self : PositionManager) : outcome unit :=
  match cs with
  | [] => Returned tt self
  | c :: cs' =>
      match perform c self with
      | Returned _ self' => run cs' self'
      | Raised e self' => Raised e self'
      end
  end.

(** The documented preconditions of a call: positive price and quantity. *)
Definition well_formed (c : call) : Prop :=
  match c with
  | Buy _ price quantity _ => (0 < price)%Qc /\ 0 < quantity
  | Sell _ price quantity _ => (0 < price)%Qc /\ 0 < quantity
  | UpdatePrice price => (0 < price)%Qc
  end.

(** Number of shares in the open lots. *)
Fixpoint holdings_quantity (hs : list Holding.t) : Z :=
  match hs with
  | [] => 0
  | h :: hs' => Holding.quantity h + holdings_quantity hs'
  end.

(** The object an outcome leaves behind. *)
Definition object {A : Type} (o : outcome A) : PositionManager :=
  match o with
  | Returned _ self => self
  | Raised _ self => self
  end.

(** The value a call returns, if it returns. *)
Definition returned_value {A : Type} (o : outcome A) : option A :=
  match o with
  | Returned a _ => Some a
  | Raised _ _ => None
  end.

(** ** The scenarios of the specification *)

(** Scenario A: a capital of 10000, then 10 shares bought at 100. *)
Definition scenario_A : outcome unit :=
  buy 1 (of_int 100) 10 "" (init (of_int 10000)).

(** Scenario B: the price moves to 110. *)
Definition scenario_B : outcome unit :=
  update_price (of_int 110) (object scenario_A).

(** Scenario C: the 10 shares are sold at 110. *)
Definition scenario_C : outcome Z :=
  sell 2 (of_int 110) 10 "" (object scenario_B).

(** A re-entry after scenario C: 10 shares bought at 100 again. *)
Definition scenario_C_rebuy : outcome unit :=
  buy 3 (of_int 100) 10 "" (object scenario_C).

(** Calls that break the documented preconditions, on a fresh object: a
    buy at a negative price, a sale of no share at price 0, and a buy of no
    share. *)
Definition negative_price_buy : outcome unit :=
  buy 1 (of_int (-1)) 1 "" (init (of_int 10000)).

Definition zero_quantity_sell : outcome Z :=
  sell 1 (of_int 0) 0 "" (init (of_int 10000)).

Definition zero_quantity_buy : outcome unit :=
  buy 1 (of_int 100) 0 "" (init (of_int 10000)).

(** The exception a call raises, if it raises. *)
Definition raised_exn {A : Type} (o : outcome A) : option exn :=
  match o with
  | Returned _ _ => None
  | Raised e _ => Some e
  end.

(** ** Invariants of the object *)

(** The open lots are non-empty and account for the position. *)
Definition holdings_consistent (self : PositionManager) : Prop :=
  Forall (fun h => 0 < Holding.quantity h) (holdings self) /\
  holdings_quantity (holdings self) = position self.

(** The cash is not overdrawn. *)
Definition solvent (self : PositionManager) : Prop :=
  (0 <= available_capital self)%Qc.

(** Scenarios A to C as one sequence of calls. *)
Definition scenario_calls : list call :=
  [ Buy 1 (of_int 100) 10 ""; UpdatePrice (of_int 110);
    Sell 2 (of_int 110) 10 "" ].

(** Two buys (10 shares at 100, 5 at 90) and a sale of 12 shares at 95. *)
Definition partial_exit_calls : list call :=
  [ Buy 1 (of_int 100) 10 ""; Buy 2 (of_int 90) 5 "";
    Sell 3 (of_int 95) 12 "" ].

(** ** Bookkeeping relations between the fields *)

(** Cash and cost basis add up to the initial capital. *)
Definition books_balance (self : PositionManager) : Prop :=
  (available_capital self + total_cost self)%Qc = initial_capital self.


(** The fields that a Trade and its log entry have in common. *)
Definition Trade_fields (t : Trade.t)
    : datetime * string * float * Z * string :=
  (Trade.time t, Trade.action t, Trade.price t, Trade.quantity t,
   Trade.reason t).

Definition TradeLog_fields (l : TradeLog.t)
    : datetime * string * float * Z * string :=
  (TradeLog.time l, TradeLog.action l, TradeLog.price l,
   TradeLog.quantity l, TradeLog.reason l).

(** [trade_logs[-1]], if there is one. *)
Definition last_log (self : PositionManager) : option TradeLog.t :=
  hd_error (rev (trade_logs self)).

(** The latest log entry shows the position, the cash and the average cost
    that the object has now. *)
Definition log_current (self : PositionManager) : Prop :=
  match last_log self with
  | None => True
  | Some entry =>
      TradeLog.position entry = position self /\
      TradeLog.available_capital entry = float_of (available_capital self) /\
      TradeLog.cost_price entry = float_of (avg_cost_price self)
  end.

(** ** The backtest loop of main.py *)

(** [x < y] on decimals. *)
Definition Decimal_ltb (x y : Decimal) : bool :=
  match (x ?= y)%Qc with
  | Lt => true
  | _ => false
  end.

(** A row of the data frame as the loop reads it: the index [time], the
    [price] of the candle, and the bands [Decimal(str(df['Upper']))] and
    [Decimal(str(df['Lower']))], which are [None] when the float is NaN
    (the rows for which [pd.isna] holds). *)
Module Row.
Record t : Type := mk {
  time : datetime;
  price : Decimal;
  Upper : option Decimal;
  Lower : option Decimal
}.
End Row.

(** Sequencing of two statements: an exception leaves the block. *)
Definition and_then (o : outcome unit)
    (k : PositionManager -> outcome unit) : outcome unit :=
  match o with
  | Returned _ self => k self
  | Raised e self => Raised e self
  end.

(** The body of the [for] loop of [main]. *)
Definition main_iteration (row : Row.t) (position_manager : PositionManager)
    : outcome unit :=
  let current_price := Row.price row in
  and_then (update_price current_price position_manager)
    (fun position_manager =>
       match Row.Lower row, Row.Upper row with
       | Some lower_band, Some upper_band =>
           and_then
             (if Decimal_ltb current_price lower_band
              then buy (Row.time row) current_price 10 "价格低于BOLL下轨"
                     position_manager
              else Returned tt position_manager)
             (fun position_manager =>
                if Decimal_gtb current_price upper_band
                   && (position position_manager >? 0)
                then discard
                       (sell (Row.time row) current_price
                          (position position_manager) "价格高于BOLL上轨"
                          position_manager)
                else Returned tt position_manager)
       | _, _ => Returned tt position_manager
       end).

Fixpoint main_iterations (rows : list Row.t)
    (position_manager : PositionManager) : outcome unit :=
  match rows with
  | [] => Returned tt position_manager
  | row :: rows' =>
      and_then (main_iteration row position_manager) (main_iterations rows')
  end.

(** [main] from the construction of the PositionManager to the end of the
    loop: [for i in range(1, len(df))] leaves out the first row. *)
Definition main_loop (df : list Row.t) : outcome unit :=
  main_iterations (tl df) (init (of_int 10000)).

(** A short data frame: a warm-up row, a dip below the lower band, a row
    inside the bands and a spike above the upper band. *)
Definition sample_df : list Row.t :=
  [ Row.mk 0 (of_int 100) None None;
    Row.mk 1 (of_int 100) None None;
    Row.mk 2 (of_int 90) (Some (of_int 110)) (Some (of_int 95));
    Row.mk 3 (of_int 100) (Some (of_int 110)) (Some (of_int 95));
    Row.mk 4 (of_int 120) (Some (of_int 110)) (Some (of_int 95)) ].

(** * Properties *)

(** ** Arithmetic of the number model *)

Lemma Decimal_gtb_true (x y : Decimal) :
  Decimal_gtb x y = true <-> (y < x)%Qc.
Proof.
  unfold Decimal_gtb. rewrite (Qcgt_alt x y).
  destruct (x ?= y)%Qc; split; congruence.
Qed.

Lemma Decimal_gtb_false (x y : Decimal) :
  Decimal_gtb x y = false <-> (x <= y)%Qc.
Proof.
  unfold Decimal_gtb. rewrite (Qcle_alt x y).
  destruct (x ?= y)%Qc; split; congruence.
Qed.

Lemma of_int_pos (n : Z) : 0 < n -> (0 < of_int n)%Qc.
Proof.
  intros Hn. unfold Qclt, of_int. cbn [this Q2Qc].
  rewrite (Qred_correct (inject_Z n)). unfold Qlt; simpl. lia.
Qed.

Lemma of_int_nonzero (n : Z) : n <> 0 -> of_int n <> 0%Qc.
Proof.
  intros Hn Heq. apply Hn.
  assert (H : (of_int n == 0)%Q) by (rewrite Heq; reflexivity).
  unfold of_int in H. cbn [this Q2Qc] in H.
  rewrite (Qred_correct (inject_Z n)) in H.
  unfold Qeq in H; simpl in H. lia.
Qed.

Lemma Qcle_0_minus (x y : Decimal) : (x <= y)%Qc -> (0 <= y - x)%Qc.
Proof. intros H. apply (proj1 (Qcle_minus_iff x y)), H. Qed.

Lemma Qcle_0_plus (x y : Decimal) :
  (0 <= x)%Qc -> (0 <= y)%Qc -> (0 <= x + y)%Qc.
Proof.
  intros Hx Hy. replace 0%Qc with (0 + 0)%Qc by ring.
  apply Qcplus_le_compat; assumption.
Qed.

Lemma Qcle_0_mult (x y : Decimal) :
  (0 <= x)%Qc -> (0 <= y)%Qc -> (0 <= x * y)%Qc.
Proof.
  intros Hx Hy. replace 0%Qc with (0 * y)%Qc by ring.
  apply Qcmult_le_compat_r; assumption.
Qed.

Lemma Decimal_truediv_nonzero (x : Decimal) (n : Z) :
  n <> 0 -> Decimal_truediv x n = inr (x / of_int n)%Qc.
Proof.
  intros Hn. unfold Decimal_truediv.
  destruct (Z.eqb_spec n 0) as [->|_]; [contradiction | reflexivity].
Qed.

Lemma Decimal_truediv_zero (x : Decimal) :
  exists e, Decimal_truediv x 0 = inl e /\ e <> ValueError.
Proof.
  unfold Decimal_truediv; simpl.
  destruct (Qc_eq_bool x 0); eexists; (split; [reflexivity | discriminate]).
Qed.

(** Closes a goal that compares two concrete decimals. *)
Ltac decimal_eq := apply Qc_is_canon; vm_compute; reflexivity.

(** ** Rejected orders *)

(** C4. A [buy] whose cost [price * quantity] exceeds [available_capital]
    returns normally (no exception) and leaves the whole object as it was:
    no field is changed and nothing is appended to [trades] or
    [trade_logs]. *)
Theorem buy_insufficient_capital_noop
    (time : datetime) (price : Decimal) (quantity : Z) (reason : string)
    (self : PositionManager) :
  (available_capital self < price * of_int quantity)%Qc ->
  buy time price quantity reason self = Returned tt self.
Proof.
  intros Hcost. unfold buy.
  apply Decimal_gtb_true in Hcost. rewrite Hcost. reflexivity.
Qed.

(** Scenario D: 200 shares at 100 against a capital of 10000. *)
Lemma buy_insufficient_capital_noop_witness :
  (available_capital (init (of_int 10000)) < of_int 100 * of_int 200)%Qc /\
  buy 1 (of_int 100) 200 "" (init (of_int 10000)) =
  Returned tt (init (of_int 10000)).
Proof.
  split.
  - reflexivity.
  - apply buy_insufficient_capital_noop. reflexivity.
Defined.

Lemma sell_rejected
    (time : datetime) (price : Decimal) (quantity : Z) (reason : string)
    (self : PositionManager) :
  position self < quantity ->
  sell time price quantity reason self = Returned 0 self.
Proof.
  intros Hpos. unfold sell.
  apply Z.ltb_lt in Hpos. rewrite Hpos. reflexivity.
Qed.

(** C5. A [sell] of more shares than [position] returns 0 normally (no
    exception) and leaves the whole object as it was. *)
Theorem sell_insufficient_position_noop
    (time : datetime) (price : Decimal) (quantity : Z) (reason : string)
    (self : PositionManager) :
  position self < quantity ->
  sell time price quantity reason self = Returned 0 self.
Proof.
  intros Hpos. unfold sell.
  destruct (Z.ltb_spec (position self) quantity) as [_|Hge];
    [reflexivity | lia].
Qed.

Lemma sell_insufficient_position_noop_witness :
  position (init (of_int 10000)) < 5 /\
  sell 1 (of_int 110) 5 "" (init (of_int 10000)) =
  Returned 0 (init (of_int 10000)).
Proof.
  split.
  - reflexivity.
  - apply sell_insufficient_position_noop. reflexivity.
Defined.

(** ** Executed orders *)

(** The object after a [buy] that passes the capital check and whose
    division succeeds. *)
Lemma buy_executed
    (time : datetime) (price : Decimal) (quantity : Z) (reason : string)
    (self : PositionManager) :
  (price * of_int quantity <= available_capital self)%Qc ->
  position self + quantity <> 0 ->
  buy time price quantity reason self =
  Returned tt
    (_log_trade time "买入" price quantity reason (PyFloat float_zero)
       {| position := position self + quantity;
          total_cost := (total_cost self + price * of_int quantity)%Qc;
          avg_cost_price :=
            ((total_cost self + price * of_int quantity) /
             of_int (position self + quantity))%Qc;
          trades :=
            trades self ++
            [ Trade.mk time "买入" (float_of price) quantity reason
                (PyFloat float_zero) ];
          holdings := holdings self ++ [ Holding.mk time price quantity ];
          trade_logs := trade_logs self;
          last_price := price;
          initial_capital := initial_capital self;
          available_capital :=
            (available_capital self - price * of_int quantity)%Qc |}).
Proof.
  intros Hcost Hpos. unfold buy.
  apply Decimal_gtb_false in Hcost. rewrite Hcost.
  cbn [set_total_cost set_position set_last_price set_available_capital
       position total_cost].
  rewrite (Decimal_truediv_nonzero _ _ Hpos). reflexivity.
Qed.

(** C8. A [buy] that is executed (its cost is at most [available_capital];
    the new position is not 0, so the division is defined) returns normally
    and adds the cost to [total_cost], the quantity to [position], takes the
    cost from [available_capital], sets [last_price] to the price and
    [avg_cost_price] to [total_cost / position], appends the lot to
    [holdings], a Trade with profit 0.0 to [trades] and a log entry (profit
    0.0, the new position and capital) to [trade_logs]. *)
Theorem buy_success_effects
    (time : datetime) (price : Decimal) (quantity : Z) (reason : string)
    (self : PositionManager) :
  (price * of_int quantity <= available_capital self)%Qc ->
  position self + quantity <> 0 ->
  exists self' entry,
    buy time price quantity reason self = Returned tt self' /\
    total_cost self' = (total_cost self + price * of_int quantity)%Qc /\
    position self' = position self + quantity /\
    available_capital self' =
      (available_capital self - price * of_int quantity)%Qc /\
    last_price self' = price /\
    avg_cost_price self' =
      (total_cost self' / of_int (position self'))%Qc /\
    initial_capital self' = initial_capital self /\
    holdings self' =
      holdings self ++ [ Holding.mk time price quantity ] /\
    trades self' =
      trades self ++
      [ Trade.mk time "买入" (float_of price) quantity reason
          (PyFloat float_zero) ] /\
    trade_logs self' = trade_logs self ++ [entry] /\
    TradeLog.time entry = time /\
    TradeLog.action entry = "买入"%string /\
    TradeLog.price entry = float_of price /\
    TradeLog.quantity entry = quantity /\
    TradeLog.reason entry = reason /\
    TradeLog.profit entry = PyFloat float_zero /\
    TradeLog.position entry = position self' /\
    TradeLog.cost_price entry = float_of (avg_cost_price self') /\
    TradeLog.market_value entry =
      float_of (price * of_int (position self'))%Qc /\
    TradeLog.available_capital entry = float_of (available_capital self') /\
    TradeLog.account_value entry = float_of (get_account_value self') /\
    TradeLog.total_profit entry = float_of (get_total_profit self').
Proof.
  intros Hcost Hpos.
  rewrite (buy_executed time price quantity reason self Hcost Hpos).
  eexists; eexists. split; [reflexivity|].
  cbn. repeat split.
Qed.

(** Scenario A as an instance: 10 shares at 100 from a capital of 10000
    give a position of 10, an available capital of 9000 and an average
    cost of 100. *)
Lemma buy_success_effects_witness :
  (of_int 100 * of_int 10 <= available_capital (init (of_int 10000)))%Qc /\
  position (init (of_int 10000)) + 10 <> 0 /\
  exists self',
    buy 1 (of_int 100) 10 "" (init (of_int 10000)) = Returned tt self' /\
    position self' = 10 /\
    available_capital self' = of_int 9000 /\
    avg_cost_price self' = of_int 100.
Proof.
  assert (Hcost :
            (of_int 100 * of_int 10 <=
             available_capital (init (of_int 10000)))%Qc)
    by (vm_compute; discriminate).
  assert (Hpos : position (init (of_int 10000)) + 10 <> 0)
    by (vm_compute; discriminate).
  split; [exact Hcost|]. split; [exact Hpos|].
  destruct (buy_success_effects 1 (of_int 100) 10 "" (init (of_int 10000))
              Hcost Hpos)
    as (self' & entry & Hbuy & Htotal & Hposition & Hcash & _ & Havg & _).
  exists self'. split; [exact Hbuy|]. split; [| split].
  - rewrite Hposition. reflexivity.
  - rewrite Hcash. decimal_eq.
  - rewrite Havg, Htotal, Hposition. decimal_eq.
Defined.

(** The object after a [sell] that passes the position check. *)
Lemma sell_executed
    (time : datetime) (price : Decimal) (quantity : Z) (reason : string)
    (self : PositionManager) :
  quantity <= position self ->
  sell time price quantity reason self =
  Returned 0
    (_log_trade time "卖出" price quantity reason
       (PyDecimal ((price - avg_cost_price self) * of_int quantity)%Qc)
       {| position := position self - quantity;
          total_cost := (total_cost self - price * of_int quantity)%Qc;
          avg_cost_price :=
            if position self - quantity =? 0 then price
            else ((total_cost self - price * of_int quantity) /
                  of_int (position self - quantity))%Qc;
          trades :=
            trades self ++
            [ Trade.mk time "卖出" (float_of price) quantity reason
                (PyFloat float_zero) ];
          holdings :=
            snd (fold_left _update_holdings_iter (holdings self)
                   (quantity, []));
          trade_logs := trade_logs self;
          last_price := price;
          initial_capital := initial_capital self;
          available_capital :=
            (available_capital self + price * of_int quantity)%Qc |}).
Proof.
  intros Hpos. unfold sell.
  destruct (Z.ltb_spec (position self) quantity) as [Hlt|_]; [lia|].
  cbn [set_total_cost set_position set_last_price set_available_capital
       position total_cost avg_cost_price].
  unfold _update_holdings. cbn [holdings set_avg_cost_price].
  destruct (Z.eqb_spec (position self - quantity) 0) as [Hz|Hnz];
    cbn [negb or_raise].
  - destruct (fold_left _ _ _) as [remaining new_holdings]. reflexivity.
  - rewrite (Decimal_truediv_nonzero _ _ Hnz). cbn [or_raise].
    destruct (fold_left _ _ _) as [remaining new_holdings]. reflexivity.
Qed.

(** Whatever its arguments, [sell] returns the integer 0 and raises
    nothing. *)
Lemma sell_returns_zero
    (time : datetime) (price : Decimal) (quantity : Z) (reason : string)
    (self : PositionManager) :
  exists self', sell time price quantity reason self = Returned 0 self'.
Proof.
  destruct (Z.lt_ge_cases (position self) quantity) as [Hlt|Hge].
  - exists self. unfold sell.
    apply Z.ltb_lt in Hlt. rewrite Hlt. reflexivity.
  - eexists. apply sell_executed. exact Hge.
Qed.

(** ** The scenarios, evaluated *)

Example scenario_A_state :
  returned_value scenario_A = Some tt /\
  position (object scenario_A) = 10 /\
  available_capital (object scenario_A) = of_int 9000 /\
  avg_cost_price (object scenario_A) = of_int 100 /\
  total_cost (object scenario_A) = of_int 1000.
Proof.
  repeat split; try reflexivity; decimal_eq.
Qed.

Example scenario_B_state :
  get_market_value (object scenario_B) = of_int 1100 /\
  get_account_value (object scenario_B) = of_int 10100 /\
  get_total_profit (object scenario_B) = of_int 100.
Proof.
  repeat split; decimal_eq.
Qed.

Example scenario_C_state :
  position (object scenario_C) = 0 /\
  available_capital (object scenario_C) = of_int 10100 /\
  avg_cost_price (object scenario_C) = of_int 110 /\
  total_cost (object scenario_C) = of_int (-100).
Proof.
  repeat split; try reflexivity; decimal_eq.
Qed.

(** C1 (fails on the code). In scenario C the position before the sale is
    10 shares at an average cost of 100, so the sale of 10 shares at 110
    realizes (110 - 100) * 10 = 100; [sell] returns the integer 0. *)
Theorem sell_scenario_C_returns_zero :
  position (object scenario_B) = 10 /\
  avg_cost_price (object scenario_B) = of_int 100 /\
  ((of_int 110 - avg_cost_price (object scenario_B)) * of_int 10)%Qc =
    of_int 100 /\
  returned_value scenario_C = Some 0 /\
  of_int 0 <> of_int 100.
Proof.
  repeat split; try reflexivity; try decimal_eq.
  intros H. apply (f_equal (fun d : Decimal => Qnum d)) in H.
  vm_compute in H. discriminate.
Qed.

(** C3 (fails on the code). In scenario C the Trade that [sell] appends
    has the default profit 0.0, while the log entry of the same sale
    carries the realized profit 100 (the buy before it has 0.0 in both). *)
Theorem sell_scenario_C_recorded_profit :
  map Trade.profit (trades (object scenario_C)) =
    [PyFloat float_zero; PyFloat float_zero] /\
  map TradeLog.profit (trade_logs (object scenario_C)) =
    [PyFloat float_zero; PyDecimal (of_int 100)].
Proof.
  split.
  - reflexivity.
  - cbn.
    match goal with
    | |- [_; PyDecimal ?d] = _ => replace d with (of_int 100) by decimal_eq
    end.
    reflexivity.
Qed.

(** ** Round trip *)

(** C7. On a fresh object with capital [cap], buying [qty > 0] shares at
    [p1 > 0] with [p1 * qty <= cap] and selling the same quantity at
    [p2 > 0] leaves a total profit of [(p2 - p1) * qty], no position, and
    an available capital of [cap + (p2 - p1) * qty]. *)
Theorem round_trip_conservation
    (t1 t2 : datetime) (p1 p2 : Decimal) (qty : Z) (r1 r2 : string)
    (cap : Decimal) :
  0 < qty -> (0 < p1)%Qc -> (0 < p2)%Qc ->
  (p1 * of_int qty <= cap)%Qc ->
  exists s1 s2,
    buy t1 p1 qty r1 (init cap) = Returned tt s1 /\
    sell t2 p2 qty r2 s1 = Returned 0 s2 /\
    get_total_profit s2 = ((p2 - p1) * of_int qty)%Qc /\
    position s2 = 0 /\
    available_capital s2 = (cap + (p2 - p1) * of_int qty)%Qc.
Proof.
  intros Hqty Hp1 Hp2 Hcost.
  eexists; eexists. split.
  - apply buy_executed; cbn; [exact Hcost | lia].
  - split.
    + apply sell_executed. cbn. lia.
    + unfold get_total_profit, get_account_value, get_market_value. cbn.
      rewrite Z.sub_diag. split; [| split].
      * change (of_int 0) with 0%Qc. ring.
      * reflexivity.
      * ring.
Qed.

Lemma round_trip_conservation_witness :
  0 < 10 /\ (0 < of_int 100)%Qc /\ (0 < of_int 110)%Qc /\
  (of_int 100 * of_int 10 <= of_int 10000)%Qc /\
  exists s1 s2,
    buy 1 (of_int 100) 10 "" (init (of_int 10000)) = Returned tt s1 /\
    sell 2 (of_int 110) 10 "" s1 = Returned 0 s2 /\
    get_total_profit s2 = ((of_int 110 - of_int 100) * of_int 10)%Qc /\
    position s2 = 0 /\
    available_capital s2 =
      (of_int 10000 + (of_int 110 - of_int 100) * of_int 10)%Qc.
Proof.
  split; [lia|]. split; [reflexivity|]. split; [reflexivity|].
  split; [vm_compute; discriminate|].
  apply round_trip_conservation;
    [lia | reflexivity | reflexivity | vm_compute; discriminate].
Defined.

(** ** Cost basis across a full exit *)

(** C2 (fails on the code). After scenario C the position is 0 but
    [total_cost] is 1000 - 1100 = -100, not 0; the next buy of 10 shares at
    100 gets an average cost of (-100 + 1000) / 10 = 90, not 100. *)
Lemma full_exit_total_cost_counterexample :
  returned_value scenario_C = Some 0 /\
  position (object scenario_C) = 0 /\
  total_cost (object scenario_C) = of_int (-100) /\
  total_cost (object scenario_C) <> of_int 0 /\
  returned_value scenario_C_rebuy = Some tt /\
  avg_cost_price (object scenario_C_rebuy) = of_int 90 /\
  avg_cost_price (object scenario_C_rebuy) <> of_int 100.
Proof.
  assert (Hne : forall x y : Decimal, Qnum x <> Qnum y -> x <> y)
    by (intros x y Hn Heq; apply Hn; rewrite Heq; reflexivity).
  repeat split; try reflexivity; try decimal_eq;
    apply Hne; vm_compute; discriminate.
Qed.

Lemma avg_after_buy_from_flat (residue p : Decimal) (q : Z) :
  q <> 0 ->
  ((residue + p * of_int q) / of_int q)%Qc = p <-> residue = 0%Qc.
Proof.
  intros Hq. pose proof (of_int_nonzero q Hq) as Hq'. split.
  - intros Havg.
    assert (Hmul : (of_int q * ((residue + p * of_int q) / of_int q))%Qc =
                   (residue + p * of_int q)%Qc)
      by (apply Qcmult_div_r; exact Hq').
    rewrite Havg in Hmul.
    replace residue with ((residue + p * of_int q) - of_int q * p)%Qc by ring.
    rewrite <- Hmul. ring.
  - intros ->. replace (0 + p * of_int q)%Qc with (p * of_int q)%Qc by ring.
    apply Qcdiv_mult_l. exact Hq'.
Qed.

(** C2, amended. A [sell] of the whole position returns with [position]
    0, [avg_cost_price] set to the exit price and [total_cost] lowered by
    the proceeds [price * quantity] (no reset). The next executed buy of
    [q > 0] shares at [p] then gets the average cost
    [(total_cost + p * q) / q], which is [p] exactly when the [total_cost]
    left by the exit is 0. *)
Theorem full_exit_total_cost
    (time : datetime) (price : Decimal) (quantity : Z) (reason : string)
    (self : PositionManager) :
  position self = quantity ->
  exists self',
    sell time price quantity reason self = Returned 0 self' /\
    position self' = 0 /\
    avg_cost_price self' = price /\
    total_cost self' = (total_cost self - price * of_int quantity)%Qc /\
    forall (time' : datetime) (p : Decimal) (q : Z) (reason' : string),
      0 < q ->
      (p * of_int q <= available_capital self')%Qc ->
      exists self'',
        buy time' p q reason' self' = Returned tt self'' /\
        avg_cost_price self'' =
          ((total_cost self' + p * of_int q) / of_int q)%Qc /\
        (avg_cost_price self'' = p <-> total_cost self' = 0%Qc).
Proof.
  intros Hall. eexists. split.
  - apply sell_executed. lia.
  - cbn. replace (position self - quantity) with 0 by lia.
    repeat split.
    intros time' p q reason' Hq Hcost. eexists. split.
    + apply buy_executed; cbn; [exact Hcost | lia].
    + cbn. split; [reflexivity|].
      apply avg_after_buy_from_flat. lia.
Qed.

Lemma full_exit_total_cost_witness :
  position (object scenario_B) = 10 /\
  exists self',
    sell 2 (of_int 110) 10 "" (object scenario_B) = Returned 0 self' /\
    position self' = 0 /\
    avg_cost_price self' = of_int 110 /\
    total_cost self' =
      (total_cost (object scenario_B) - of_int 110 * of_int 10)%Qc /\
    forall (time' : datetime) (p : Decimal) (q : Z) (reason' : string),
      0 < q ->
      (p * of_int q <= available_capital self')%Qc ->
      exists self'',
        buy time' p q reason' self' = Returned tt self'' /\
        avg_cost_price self'' =
          ((total_cost self' + p * of_int q) / of_int q)%Qc /\
        (avg_cost_price self'' = p <-> total_cost self' = 0%Qc).
Proof.
  split.
  - reflexivity.
  - apply full_exit_total_cost. reflexivity.
Defined.

(** ** Arguments outside the preconditions *)

(** The only exceptions [buy] can raise are those of the division. *)
Lemma buy_raises_only_division
    (time : datetime) (price : Decimal) (quantity : Z) (reason : string)
    (self self' : PositionManager) (e : exn) :
  buy time price quantity reason self = Raised e self' ->
  e <> ValueError /\ position self + quantity = 0.
Proof.
  unfold buy. destruct (Decimal_gtb _ _); [discriminate|].
  cbn [set_total_cost set_position set_last_price set_available_capital
       position total_cost].
  unfold Decimal_truediv.
  destruct (Z.eqb_spec (position self + quantity) 0) as [Hz|Hnz].
  - destruct (Qc_eq_bool _ _); cbn [or_raise]; intros H; inversion H;
      (split; [discriminate | exact Hz]).
  - cbn [or_raise]. discriminate.
Qed.

(** C9 (fails on the code). On a fresh object with capital 10000, a buy of
    1 share at price -1 is executed (position 1, capital 10001), a sale of
    0 shares at price 0 is executed and recorded, and a buy of 0 shares
    fails in the division with InvalidOperation, after the price was
    stored. *)
Lemma invalid_arguments_counterexample :
  returned_value negative_price_buy = Some tt /\
  position (object negative_price_buy) = 1 /\
  available_capital (object negative_price_buy) = of_int 10001 /\
  List.length (trade_logs (object negative_price_buy)) = 1%nat /\
  returned_value zero_quantity_sell = Some 0 /\
  List.length (trade_logs (object zero_quantity_sell)) = 1%nat /\
  raised_exn zero_quantity_buy = Some InvalidOperation /\
  last_price (object zero_quantity_buy) = of_int 100.
Proof.
  repeat split; try reflexivity; decimal_eq.
Qed.

(** C9, amended. [buy] and [sell] do not check the sign of price or
    quantity: with a non-positive price or quantity no ValueError is
    raised, [sell] raises nothing at all, and the order goes through the
    usual path: a sale of at most [position] shares is executed and
    recorded, and so is a buy whose cost is at most [available_capital]
    and that does not bring the position to 0. *)
Theorem nonpositive_arguments_processed
    (time : datetime) (price : Decimal) (quantity : Z) (reason : string)
    (self : PositionManager) :
  (price <= 0)%Qc \/ quantity <= 0 ->
  raised_exn (buy time price quantity reason self) <> Some ValueError /\
  raised_exn (sell time price quantity reason self) = None /\
  (quantity <= position self ->
   position (object (sell time price quantity reason self)) =
     position self - quantity /\
   trades (object (sell time price quantity reason self)) =
     trades self ++
     [ Trade.mk time "卖出" (float_of price) quantity reason
         (PyFloat float_zero) ]) /\
  ((price * of_int quantity <= available_capital self)%Qc ->
   position self + quantity <> 0 ->
   returned_value (buy time price quantity reason self) = Some tt /\
   position (object (buy time price quantity reason self)) =
     position self + quantity /\
   trades (object (buy time price quantity reason self)) =
     trades self ++
     [ Trade.mk time "买入" (float_of price) quantity reason
         (PyFloat float_zero) ]).
Proof.
  intros _. split; [| split; [| split]].
  - destruct (buy time price quantity reason self) as [u s|e s] eqn:Hbuy.
    + discriminate.
    + apply buy_raises_only_division in Hbuy. cbn. intros H.
      inversion H. subst e. destruct Hbuy as [Hne _]. apply Hne. reflexivity.
  - destruct (sell_returns_zero time price quantity reason self) as [s Hs].
    rewrite Hs. reflexivity.
  - intros Hpos. rewrite (sell_executed _ _ _ _ _ Hpos). cbn.
    split; reflexivity.
  - intros Hcost Hpos. rewrite (buy_executed _ _ _ _ _ Hcost Hpos). cbn.
    repeat split.
Qed.

(** After scenario A (10 shares, capital 9000): orders of 1 share at
    price -1. *)
Lemma nonpositive_arguments_processed_witness :
  ((of_int (-1) <= 0)%Qc \/ 1 <= 0) /\
  1 <= position (object scenario_A) /\
  (of_int (-1) * of_int 1 <= available_capital (object scenario_A))%Qc /\
  position (object scenario_A) + 1 <> 0 /\
  raised_exn (buy 2 (of_int (-1)) 1 "" (object scenario_A)) <>
    Some ValueError /\
  raised_exn (sell 2 (of_int (-1)) 1 "" (object scenario_A)) = None /\
  (position (object (sell 2 (of_int (-1)) 1 "" (object scenario_A))) =
     position (object scenario_A) - 1 /\
   trades (object (sell 2 (of_int (-1)) 1 "" (object scenario_A))) =
     trades (object scenario_A) ++
     [ Trade.mk 2 "卖出" (float_of (of_int (-1))) 1 ""
         (PyFloat float_zero) ]) /\
  (returned_value (buy 2 (of_int (-1)) 1 "" (object scenario_A)) =
     Some tt /\
   position (object (buy 2 (of_int (-1)) 1 "" (object scenario_A))) =
     position (object scenario_A) + 1 /\
   trades (object (buy 2 (of_int (-1)) 1 "" (object scenario_A))) =
     trades (object scenario_A) ++
     [ Trade.mk 2 "买入" (float_of (of_int (-1))) 1 ""
         (PyFloat float_zero) ]).
Proof.
  assert (Hprice : (of_int (-1) <= 0)%Qc \/ 1 <= 0)
    by (left; vm_compute; discriminate).
  assert (Hsell : 1 <= position (object scenario_A))
    by (vm_compute; discriminate).
  assert (Hcost :
            (of_int (-1) * of_int 1 <=
             available_capital (object scenario_A))%Qc)
    by (vm_compute; discriminate).
  assert (Hpos : position (object scenario_A) + 1 <> 0)
    by (vm_compute; discriminate).
  destruct (nonpositive_arguments_processed 2 (of_int (-1)) 1 ""
              (object scenario_A) Hprice) as (Hb & Hs & Hsold & Hbought).
  repeat (split; [assumption|]).
  split; [exact (Hsold Hsell) | exact (Hbought Hcost Hpos)].
Defined.

(** ** Invariants along a sequence of calls *)

Lemma holdings_quantity_app (hs hs' : list Holding.t) :
  holdings_quantity (hs ++ hs') = holdings_quantity hs + holdings_quantity hs'.
Proof.
  induction hs as [|h hs IH]; cbn; [reflexivity|].
  rewrite IH. lia.
Qed.

Lemma holdings_quantity_nonneg (hs : list Holding.t) :
  Forall (fun h => 0 < Holding.quantity h) hs -> 0 <= holdings_quantity hs.
Proof.
  induction 1 as [|h hs Hh _ IH]; cbn; lia.
Qed.

(** The loop of [_update_holdings], started anywhere: on lots that are all
    non-empty and hold at least [remaining] shares together, it removes
    exactly [remaining] shares and leaves non-empty lots. *)
Lemma _update_holdings_loop (hs : list Holding.t) :
  forall (remaining : Z) (new_holdings : list Holding.t),
    Forall (fun h => 0 < Holding.quantity h) hs ->
    Forall (fun h => 0 < Holding.quantity h) new_holdings ->
    0 <= remaining <= holdings_quantity hs ->
    Forall (fun h => 0 < Holding.quantity h)
      (snd (fold_left _update_holdings_iter hs (remaining, new_holdings))) /\
    holdings_quantity
      (snd (fold_left _update_holdings_iter hs (remaining, new_holdings))) =
    holdings_quantity new_holdings + holdings_quantity hs - remaining.
Proof.
  induction hs as [|h hs IH]; intros remaining new_holdings Hhs Hnew Hrem.
  - cbn in *. split; [exact Hnew | lia].
  - inversion Hhs as [|h' hs' Hh Hhs']; subst.
    cbn [fold_left]. cbn [holdings_quantity] in *.
    unfold _update_holdings_iter at 2 4.
    destruct (Z.leb_spec remaining 0) as [Hle|Hgt].
    + destruct (IH remaining (new_holdings ++ [h])) as [Hall Hsum];
        [ exact Hhs'
        | apply Forall_app; split; [exact Hnew | repeat constructor; exact Hh]
        | pose proof (holdings_quantity_nonneg hs Hhs'); lia
        | ].
      split; [exact Hall|].
      rewrite Hsum, holdings_quantity_app. cbn. lia.
    + destruct (Z.leb_spec (Holding.quantity h) remaining) as [Hfit|Hcut].
      * destruct (IH (remaining - Holding.quantity h) new_holdings)
          as [Hall Hsum]; [exact Hhs' | exact Hnew | lia |].
        split; [exact Hall|]. rewrite Hsum. lia.
      * destruct
          (IH 0
             (new_holdings ++
              [ {| Holding.time := Holding.time h;
                   Holding.price := Holding.price h;
                   Holding.quantity := Holding.quantity h - remaining |} ]))
          as [Hall Hsum];
          [ exact Hhs'
          | apply Forall_app; split;
              [exact Hnew | repeat constructor; cbn; lia]
          | pose proof (holdings_quantity_nonneg hs Hhs'); lia
          | ].
        split; [exact Hall|].
        rewrite Hsum, holdings_quantity_app. cbn. lia.
Qed.

Lemma init_consistent (cap : Decimal) : holdings_consistent (init cap).
Proof. split; [constructor | reflexivity]. Qed.

(** A call within the preconditions, on an object with consistent lots,
    returns normally and keeps the lots consistent and the cash
    non-negative. *)
Lemma perform_invariant (c : call) (self : PositionManager) :
  well_formed c ->
  holdings_consistent self ->
  exists self',
    perform c self = Returned tt self' /\
    holdings_consistent self' /\
    (solvent self -> solvent self').
Proof.
  intros Hwf [Hlots Hsum].
  pose proof (holdings_quantity_nonneg _ Hlots) as Hnonneg.
  destruct c as [time price quantity reason
                |time price quantity reason|price]; cbn [perform well_formed] in *.
  - destruct Hwf as [Hprice Hqty].
    destruct (Decimal_gtb (price * of_int quantity) (available_capital self))
      eqn:Hguard.
    + exists self. unfold buy. rewrite Hguard.
      split; [reflexivity | split; [split; assumption | trivial]].
    + apply Decimal_gtb_false in Hguard.
      eexists. split; [apply buy_executed; [exact Hguard | lia] |].
      unfold holdings_consistent, solvent. cbn. split; [split|].
      * apply Forall_app. split; [exact Hlots | repeat constructor; exact Hqty].
      * rewrite holdings_quantity_app. cbn. lia.
      * intros _. apply Qcle_0_minus. exact Hguard.
  - destruct Hwf as [Hprice Hqty].
    destruct (Z.lt_ge_cases (position self) quantity) as [Hlt|Hge].
    + exists self.
      rewrite (sell_rejected _ _ _ _ _ Hlt).
      split; [reflexivity | split; [split; assumption | trivial]].
    + rewrite (sell_executed _ _ _ _ _ Hge). cbn [discard].
      eexists. split; [reflexivity|].
      destruct (_update_holdings_loop (holdings self) quantity [] Hlots
                  (Forall_nil _)) as [Hall Hrest]; [lia|].
      unfold holdings_consistent, solvent. cbn. split; [split|].
      * exact Hall.
      * rewrite Hrest. cbn. lia.
      * intros Hcash. apply Qcle_0_plus; [exact Hcash|].
        apply Qcle_0_mult; apply Qclt_le_weak;
          [exact Hprice | apply of_int_pos; exact Hqty].
  - exists (set_last_price price self).
    split; [reflexivity | split; [split; assumption | trivial]].
Qed.

Lemma run_invariant (cs : list call) :
  forall self : PositionManager,
    Forall well_formed cs ->
    holdings_consistent self ->
    exists self',
      run cs self = Returned tt self' /\
      holdings_consistent self' /\
      (solvent self -> solvent self').
Proof.
  induction cs as [|c cs IH]; intros self Hwf Hcons.
  - exists self. split; [reflexivity | split; [exact Hcons | trivial]].
  - inversion Hwf as [|c' cs' Hc Hcs]; subst.
    destruct (perform_invariant c self Hc Hcons) as (s1 & Hstep & Hcons1 & Hsol1).
    destruct (IH s1 Hcs Hcons1) as (s2 & Hrun & Hcons2 & Hsol2).
    exists s2. cbn [run]. rewrite Hstep.
    split; [exact Hrun | split; [exact Hcons2 | auto]].
Qed.

Lemma Forall_firstn_well_formed (n : nat) (cs : list call) :
  Forall well_formed cs -> Forall well_formed (firstn n cs).
Proof.
  intros Hwf. apply Forall_forall. intros c Hin.
  apply (proj1 (Forall_forall _ _) Hwf).
  rewrite <- (firstn_skipn n cs). apply in_or_app. left. exact Hin.
Qed.

(** C6. From a fresh object with a positive initial capital, after every
    call of a sequence of [buy], [sell] and [update_price] calls with
    positive prices and quantities (that is, after every prefix of the
    sequence) the calls have all returned normally and
    [available_capital >= 0]. *)
Theorem available_capital_nonnegative (cap : Decimal) (cs : list call) :
  (0 < cap)%Qc ->
  Forall well_formed cs ->
  forall n : nat,
    exists self,
      run (firstn n cs) (init cap) = Returned tt self /\
      (0 <= available_capital self)%Qc.
Proof.
  intros Hcap Hwf n.
  destruct (run_invariant (firstn n cs) (init cap)
              (Forall_firstn_well_formed n cs Hwf) (init_consistent cap))
    as (self & Hrun & _ & Hsol).
  exists self. split; [exact Hrun|].
  apply Hsol. unfold solvent. cbn. apply Qclt_le_weak. exact Hcap.
Qed.

(** C10. From a fresh object, after every call of a sequence of [buy],
    [sell] and [update_price] calls with positive prices and quantities
    (after every prefix of the sequence) the calls have all returned
    normally and the quantities of the lots in [holdings] add up to
    [position]. *)
Theorem holdings_sum_is_position (cap : Decimal) (cs : list call) :
  Forall well_formed cs ->
  forall n : nat,
    exists self,
      run (firstn n cs) (init cap) = Returned tt self /\
      holdings_quantity (holdings self) = position self.
Proof.
  intros Hwf n.
  destruct (run_invariant (firstn n cs) (init cap)
              (Forall_firstn_well_formed n cs Hwf) (init_consistent cap))
    as (self & Hrun & [_ Hsum] & _).
  exists self. split; [exact Hrun | exact Hsum].
Qed.

Lemma scenario_calls_well_formed : Forall well_formed scenario_calls.
Proof.
  unfold scenario_calls.
  repeat (apply Forall_cons || apply Forall_nil); cbn;
    try split; reflexivity.
Qed.

Lemma available_capital_nonnegative_witness :
  (0 < of_int 10000)%Qc /\
  Forall well_formed scenario_calls /\
  exists self,
    run (firstn 3 scenario_calls) (init (of_int 10000)) = Returned tt self /\
    (0 <= available_capital self)%Qc.
Proof.
  split; [reflexivity|]. split; [exact scenario_calls_well_formed|].
  apply available_capital_nonnegative;
    [reflexivity | exact scenario_calls_well_formed].
Defined.

Lemma holdings_sum_is_position_witness :
  Forall well_formed scenario_calls /\
  exists self,
    run (firstn 1 scenario_calls) (init (of_int 10000)) = Returned tt self /\
    holdings_quantity (holdings self) = position self.
Proof.
  split; [exact scenario_calls_well_formed|].
  apply holdings_sum_is_position. exact scenario_calls_well_formed.
Defined.

(** The sale of 12 shares uses up the first lot of 10 and cuts the second
    lot of 5 down to 3. *)
Example partial_exit_holdings :
  returned_value (run partial_exit_calls (init (of_int 10000))) = Some tt /\
  position (object (run partial_exit_calls (init (of_int 10000)))) = 3 /\
  map Holding.quantity
    (holdings (object (run partial_exit_calls (init (of_int 10000))))) = [3] /\
  map Holding.time
    (holdings (object (run partial_exit_calls (init (of_int 10000))))) = [2].
Proof.
  repeat split; reflexivity.
Qed.

(** * Further properties of the ledger *)

(** ** The three ways a [buy] ends *)

Lemma buy_rejected
    (time : datetime) (price : Decimal) (quantity : Z) (reason : string)
    (self : PositionManager) :
  Decimal_gtb (price * of_int quantity) (available_capital self) = true ->
  buy time price quantity reason self = Returned tt self.
Proof. intros Hguard. unfold buy. rewrite Hguard. reflexivity. Qed.

(** A [buy] that passes the capital check but brings the position to 0
    stops at the division, with four fields already assigned. *)
Lemma buy_division_fails
    (time : datetime) (price : Decimal) (quantity : Z) (reason : string)
    (self : PositionManager) :
  (price * of_int quantity <= available_capital self)%Qc ->
  position self + quantity = 0 ->
  buy time price quantity reason self =
  Raised
    (if Qc_eq_bool (total_cost self + price * of_int quantity) 0
     then InvalidOperation else DivisionByZero)
    {| position := position self + quantity;
       total_cost := (total_cost self + price * of_int quantity)%Qc;
       avg_cost_price := avg_cost_price self;
       trades := trades self;
       holdings := holdings self;
       trade_logs := trade_logs self;
       last_price := price;
       initial_capital := initial_capital self;
       available_capital :=
         (available_capital self - price * of_int quantity)%Qc |}.
Proof.
  intros Hcost Hz. unfold buy.
  apply Decimal_gtb_false in Hcost. rewrite Hcost.
  cbn [set_total_cost set_position set_last_price set_available_capital
       position total_cost].
  unfold Decimal_truediv. rewrite Hz. cbn [Z.eqb].
  destruct (Qc_eq_bool _ _); reflexivity.
Qed.

(** Splits a goal about [buy time price quantity reason self] into the
    rejected, the failing and the executed call. *)
Ltac buy_cases time price quantity reason self :=
  let Hguard := fresh "Hguard" in
  let Hz := fresh "Hz" in
  destruct (Decimal_gtb (price * of_int quantity) (available_capital self))
    eqn:Hguard;
  [ rewrite (buy_rejected time price quantity reason self Hguard)
  | apply Decimal_gtb_false in Hguard;
    destruct (Z.eq_dec (position self + quantity) 0) as [Hz|Hz];
    [ rewrite (buy_division_fails time price quantity reason self Hguard Hz)
    | rewrite (buy_executed time price quantity reason self Hguard Hz) ] ].

(** Splits a goal about [sell time price quantity reason self] into the
    rejected and the executed call. *)
Ltac sell_cases time price quantity reason self :=
  let Hlt := fresh "Hlt" in
  let Hge := fresh "Hge" in
  destruct (Z.lt_ge_cases (position self) quantity) as [Hlt|Hge];
  [ rewrite (sell_rejected time price quantity reason self Hlt)
  | rewrite (sell_executed time price quantity reason self Hge) ].

(** Splits a goal about [perform c self] into the five ways a call ends. *)
Ltac perform_cases c self :=
  let time := fresh "time" in
  let price := fresh "price" in
  let quantity := fresh "quantity" in
  let reason := fresh "reason" in
  destruct c as [time price quantity reason
                |time price quantity reason|price];
  cbn [perform];
  [ buy_cases time price quantity reason self
  | sell_cases time price quantity reason self
  | unfold update_price ];
  cbn [discard object].

(** A property of the object that every call keeps, whether it returns or
    raises, holds for the object that a sequence of calls leaves. *)
Lemma run_object_preserves (P : PositionManager -> Prop) :
  (forall c self, P self -> P (object (perform c self))) ->
  forall cs self, P self -> P (object (run cs self)).
Proof.
  intros Hstep cs. induction cs as [|c cs IH]; intros self HP.
  - exact HP.
  - cbn [run]. pose proof (Hstep c self HP) as Hc.
    destruct (perform c self) as [u s|e s]; cbn [object] in *.
    + apply IH. exact Hc.
    + exact Hc.
Qed.

(** ** Cash, cost basis and profit *)

Lemma perform_books_balance (c : call) (self : PositionManager) :
  books_balance self -> books_balance (object (perform c self)).
Proof.
  unfold books_balance. intros Hbal.
  perform_cases c self; cbn; rewrite <- Hbal; try reflexivity; ring.
Qed.



Lemma perform_initial_capital (c : call) (self : PositionManager) :
  initial_capital (object (perform c self)) = initial_capital self.
Proof. perform_cases c self; reflexivity. Qed.

(** X1. Whatever calls are made on a fresh object, with whatever
    arguments, and also when one of them raises: [initial_capital] keeps
    its value and [available_capital + total_cost] equals it, so that
    [total_cost] is exactly the cash that is now out of the account. *)
Theorem cash_and_cost_basis_balance (cap : Decimal) (cs : list call) :
  initial_capital (object (run cs (init cap))) = cap /\
  (available_capital (object (run cs (init cap))) +
   total_cost (object (run cs (init cap))))%Qc = cap.
Proof.
  assert (H : initial_capital (object (run cs (init cap))) = cap /\
              books_balance (object (run cs (init cap)))).
  { apply (run_object_preserves
             (fun s => initial_capital s = cap /\ books_balance s)).
    - intros c self [Hcap Hbal]. split.
      + rewrite perform_initial_capital. exact Hcap.
      + apply perform_books_balance. exact Hbal.
    - split; [reflexivity|]. unfold books_balance. cbn.
      change (of_int 0) with 0%Qc. ring. }
  destruct H as [Hcap Hbal]. split; [exact Hcap|].
  unfold books_balance in Hbal. rewrite Hbal. exact Hcap.
Qed.


(** ** The two histories *)

Lemma perform_histories_parallel (c : call) (self : PositionManager) :
  map Trade_fields (trades self) = map TradeLog_fields (trade_logs self) ->
  map Trade_fields (trades (object (perform c self))) =
  map TradeLog_fields (trade_logs (object (perform c self))).
Proof.
  intros Hpar.
  perform_cases c self; cbn; try exact Hpar;
    rewrite !map_app, Hpar; reflexivity.
Qed.

(** X3. After any calls on a fresh object (also when one of them raises)
    [trades] and [trade_logs] are parallel: they have the same length and
    at each index the same time, action, price, quantity and reason. *)
Theorem histories_parallel (cap : Decimal) (cs : list call) :
  map Trade_fields (trades (object (run cs (init cap)))) =
  map TradeLog_fields (trade_logs (object (run cs (init cap)))) /\
  List.length (trades (object (run cs (init cap)))) =
  List.length (trade_logs (object (run cs (init cap)))).
Proof.
  assert (H : map Trade_fields (trades (object (run cs (init cap)))) =
              map TradeLog_fields (trade_logs (object (run cs (init cap))))).
  { apply (run_object_preserves
             (fun s => map Trade_fields (trades s) =
                       map TradeLog_fields (trade_logs s))).
    - exact perform_histories_parallel.
    - reflexivity. }
  split; [exact H|].
  rewrite <- (length_map Trade_fields), H. apply length_map.
Qed.

Lemma perform_appends (c : call) (self : PositionManager) :
  exists ts ls,
    trades (object (perform c self)) = trades self ++ ts /\
    trade_logs (object (perform c self)) = trade_logs self ++ ls /\
    (List.length ts <= 1)%nat.
Proof.
  perform_cases c self; cbn;
    first
      [ exists [], []; rewrite !app_nil_r; repeat split; cbn; lia
      | eexists; eexists; split; [reflexivity|];
        split; [reflexivity | cbn; lia] ].
Qed.

(** X4. The histories are append-only: the records that are in [trades]
    and [trade_logs] after some calls are still there, unchanged and in
    place, after any further calls; a single call adds at most one
    record. *)
Theorem histories_append_only
    (cs more : list call) (self : PositionManager) :
  exists ts ls,
    trades (object (run (cs ++ more) self)) =
      trades (object (run cs self)) ++ ts /\
    trade_logs (object (run (cs ++ more) self)) =
      trade_logs (object (run cs self)) ++ ls /\
    (List.length ts <= List.length more)%nat.
Proof.
  revert self. induction cs as [|c cs IH]; intros self.
  - cbn [app run object]. revert self.
    induction more as [|c more IHm]; intros self.
    + exists [], []. rewrite !app_nil_r. repeat split. cbn. lia.
    + cbn [run].
      destruct (perform_appends c self) as (ts1 & ls1 & Ht1 & Hl1 & Hn1).
      destruct (perform c self) as [u s|e s]; cbn [object] in *.
      * destruct (IHm s) as (ts2 & ls2 & Ht2 & Hl2 & Hn2).
        exists (ts1 ++ ts2), (ls1 ++ ls2).
        rewrite Ht2, Hl2, Ht1, Hl1, <- !app_assoc.
        repeat split. rewrite length_app. cbn. lia.
      * exists ts1, ls1. repeat split; try assumption. cbn. lia.
  - cbn [app run].
    destruct (perform c self) as [u s|e s]; cbn [object].
    + apply IH.
    + exists [], []. rewrite !app_nil_r. repeat split. cbn. lia.
Qed.

Lemma last_log_snoc (self : PositionManager) (logs : list TradeLog.t)
    (entry : TradeLog.t) :
  trade_logs self = logs ++ [entry] -> last_log self = Some entry.
Proof.
  intros Hlogs. unfold last_log. rewrite Hlogs, rev_unit. reflexivity.
Qed.

Lemma perform_log_current (c : call) (self self' : PositionManager) :
  perform c self = Returned tt self' ->
  log_current self -> log_current self'.
Proof.
  intros Hperf Hlog.
  assert (Hobj : self' = object (perform c self))
    by (rewrite Hperf; reflexivity).
  revert Hperf. subst self'.
  perform_cases c self; intros Hperf; try exact Hlog; try discriminate;
    unfold log_current;
    erewrite last_log_snoc by (cbn; reflexivity);
    cbn; repeat split.
Qed.

(** X5. When a sequence of calls on a fresh object has returned, the
    latest entry of [trade_logs], if there is one, shows the current
    [position], [available_capital] and [avg_cost_price]: calls that record
    nothing leave these three fields alone. *)
Theorem latest_log_is_current
    (cap : Decimal) (cs : list call) (self : PositionManager) :
  run cs (init cap) = Returned tt self ->
  log_current self.
Proof.
  assert (Hgen : forall cs s s',
             run cs s = Returned tt s' -> log_current s -> log_current s').
  { clear. induction cs as [|c cs IH]; intros s s' Hrun Hlog.
    - cbn in Hrun. inversion Hrun. subst. exact Hlog.
    - cbn [run] in Hrun.
      destruct (perform c s) as [[] s1|e s1] eqn:Hperf; [|discriminate].
      apply (IH s1 s' Hrun).
      apply (perform_log_current c s s1 Hperf Hlog). }
  intros Hrun. apply (Hgen cs (init cap) self Hrun).
  unfold log_current, last_log. cbn. exact I.
Qed.

Lemma latest_log_is_current_witness :
  run scenario_calls (init (of_int 10000)) =
    Returned tt (object (run scenario_calls (init (of_int 10000)))) /\
  log_current (object (run scenario_calls (init (of_int 10000)))).
Proof.
  assert (Hrun : run scenario_calls (init (of_int 10000)) =
                 Returned tt (object (run scenario_calls (init (of_int 10000)))))
    by (vm_compute; reflexivity).
  split; [exact Hrun|].
  apply (latest_log_is_current (of_int 10000) scenario_calls). exact Hrun.
Defined.

(** ** Position and open lots *)

Lemma positive_lots_empty (hs : list Holding.t) :
  Forall (fun h => 0 < Holding.quantity h) hs ->
  holdings_quantity hs = 0 -> hs = [].
Proof.
  intros Hall Hsum. destruct hs as [|h hs]; [reflexivity|].
  inversion Hall as [|h' hs' Hh Hrest]; subst.
  pose proof (holdings_quantity_nonneg hs Hrest). cbn in Hsum. lia.
Qed.

(** X6. A sequence of calls with positive prices and quantities on a fresh
    object raises nothing and leaves [position >= 0], no lot without
    shares in [holdings], and [holdings] empty exactly when the position
    is 0. *)
Theorem position_nonnegative (cap : Decimal) (cs : list call) :
  Forall well_formed cs ->
  exists self,
    run cs (init cap) = Returned tt self /\
    0 <= position self /\
    Forall (fun h => 0 < Holding.quantity h) (holdings self) /\
    (position self = 0 <-> holdings self = []).
Proof.
  intros Hwf.
  destruct (run_invariant cs (init cap) Hwf (init_consistent cap))
    as (self & Hrun & [Hlots Hsum] & _).
  exists self. split; [exact Hrun|].
  pose proof (holdings_quantity_nonneg _ Hlots) as Hnonneg.
  split; [lia|]. split; [exact Hlots|]. split.
  - intros Hz. apply positive_lots_empty; [exact Hlots | lia].
  - intros Hnil. rewrite Hnil in Hsum. cbn in Hsum. lia.
Qed.

Lemma position_nonnegative_witness :
  Forall well_formed partial_exit_calls /\
  exists self,
    run partial_exit_calls (init (of_int 10000)) = Returned tt self /\
    0 <= position self /\
    Forall (fun h => 0 < Holding.quantity h) (holdings self) /\
    (position self = 0 <-> holdings self = []).
Proof.
  assert (Hwf : Forall well_formed partial_exit_calls).
  { unfold partial_exit_calls.
    repeat (apply Forall_cons || apply Forall_nil); cbn;
      try split; reflexivity. }
  split; [exact Hwf|].
  apply position_nonnegative. exact Hwf.
Defined.

(** Once [remaining] is used up, the loop of [_update_holdings] keeps all
    the lots that are left. *)
Lemma _update_holdings_loop_done (hs : list Holding.t) :
  forall (remaining : Z) (new_holdings : list Holding.t),
    remaining <= 0 ->
    fold_left _update_holdings_iter hs (remaining, new_holdings) =
    (remaining, new_holdings ++ hs).
Proof.
  induction hs as [|h hs IH]; intros remaining new_holdings Hrem.
  - cbn. rewrite app_nil_r. reflexivity.
  - cbn [fold_left]. unfold _update_holdings_iter at 2.
    destruct (Z.leb_spec remaining 0) as [_|Hgt]; [|lia].
    rewrite (IH remaining (new_holdings ++ [h]) Hrem), <- app_assoc.
    reflexivity.
Qed.

Lemma _update_holdings_loop_fifo (hs : list Holding.t) :
  forall remaining : Z,
    exists n : nat,
      snd (fold_left _update_holdings_iter hs (remaining, [])) = skipn n hs \/
      exists h rest sold,
        skipn n hs = h :: rest /\
        0 < sold < Holding.quantity h /\
        snd (fold_left _update_holdings_iter hs (remaining, [])) =
        Holding.mk (Holding.time h) (Holding.price h)
          (Holding.quantity h - sold) :: rest.
Proof.
  induction hs as [|h hs IH]; intros remaining.
  - exists 0%nat. left. reflexivity.
  - cbn [fold_left]. unfold _update_holdings_iter at 2 4.
    destruct (Z.leb_spec remaining 0) as [Hle|Hgt].
    + exists 0%nat. left.
      rewrite (_update_holdings_loop_done hs remaining ([] ++ [h]) Hle).
      reflexivity.
    + destruct (Z.leb_spec (Holding.quantity h) remaining) as [Hfit|Hcut].
      * destruct (IH (remaining - Holding.quantity h)) as [n Hn].
        exists (S n). exact Hn.
      * exists 0%nat. right. exists h, hs, remaining.
        split; [reflexivity|]. split; [lia|].
        rewrite _update_holdings_loop_done by lia. reflexivity.
Qed.

Lemma holdings_after_update (quantity : Z) (self : PositionManager) :
  holdings (_update_holdings quantity self) =
  snd (fold_left _update_holdings_iter (holdings self) (quantity, [])).
Proof.
  unfold _update_holdings.
  destruct (fold_left _ _ _) as [remaining new_holdings]. reflexivity.
Qed.

(** X7. [_update_holdings] works first in, first out, on any list of
    lots: what it leaves is the old list without its first [n] lots, for
    some [n], with at most the first remaining lot cut down (same time and
    price, fewer shares); the later lots are untouched and in order. *)
Theorem _update_holdings_fifo (quantity : Z) (self : PositionManager) :
  exists n : nat,
    holdings (_update_holdings quantity self) = skipn n (holdings self) \/
    exists h rest sold,
      skipn n (holdings self) = h :: rest /\
      0 < sold < Holding.quantity h /\
      holdings (_update_holdings quantity self) =
      Holding.mk (Holding.time h) (Holding.price h)
        (Holding.quantity h - sold) :: rest.
Proof.
  rewrite holdings_after_update. apply _update_holdings_loop_fifo.
Qed.

(** X8. On an object whose lots are non-empty and add up to the position,
    a sale of the whole position is executed and leaves no share and no
    open lot. *)
Theorem full_exit_clears_holdings
    (time : datetime) (price : Decimal) (reason : string)
    (self : PositionManager) :
  holdings_consistent self ->
  exists self',
    sell time price (position self) reason self = Returned 0 self' /\
    position self' = 0 /\
    holdings self' = [].
Proof.
  intros [Hlots Hsum].
  pose proof (holdings_quantity_nonneg _ Hlots) as Hnonneg.
  rewrite (sell_executed time price (position self) reason self (Z.le_refl _)).
  eexists. split; [reflexivity|]. cbn. split; [lia|].
  destruct (_update_holdings_loop (holdings self) (position self) [] Hlots
              (Forall_nil _)) as [Hall Hrest]; [lia|].
  apply positive_lots_empty; [exact Hall|].
  rewrite Hrest. cbn. lia.
Qed.

Lemma full_exit_clears_holdings_witness :
  holdings_consistent (object (run (firstn 2 partial_exit_calls)
                                 (init (of_int 10000)))) /\
  exists self',
    sell 3 (of_int 95)
      (position (object (run (firstn 2 partial_exit_calls)
                           (init (of_int 10000)))))
      "" (object (run (firstn 2 partial_exit_calls) (init (of_int 10000)))) =
    Returned 0 self' /\
    position self' = 0 /\
    holdings self' = [].
Proof.
  assert (Hcons : holdings_consistent
                    (object (run (firstn 2 partial_exit_calls)
                               (init (of_int 10000))))).
  { split.
    - cbn. repeat (apply Forall_cons || apply Forall_nil); reflexivity.
    - reflexivity. }
  split; [exact Hcons|].
  apply full_exit_clears_holdings. exact Hcons.
Defined.

(** ** The failing division of [buy] *)

(** X9. A [buy] that passes the capital check and brings the position to
    0 (for instance 0 shares on an object without shares) raises the
    division error of the decimal module, InvalidOperation when the new
    [total_cost] is 0 and DivisionByZero otherwise. The failure is not
    atomic: [position], [total_cost], [last_price] and [available_capital]
    are already assigned, while [avg_cost_price], [holdings], [trades] and
    [trade_logs] are as before. *)
Theorem buy_to_zero_position_fails
    (time : datetime) (price : Decimal) (quantity : Z) (reason : string)
    (self : PositionManager) :
  (price * of_int quantity <= available_capital self)%Qc ->
  position self + quantity = 0 ->
  let after := object (buy time price quantity reason self) in
  raised_exn (buy time price quantity reason self) =
    Some (if Qc_eq_bool (total_cost self + price * of_int quantity) 0
          then InvalidOperation else DivisionByZero) /\
  position after = 0 /\
  total_cost after = (total_cost self + price * of_int quantity)%Qc /\
  last_price after = price /\
  available_capital after =
    (available_capital self - price * of_int quantity)%Qc /\
  avg_cost_price after = avg_cost_price self /\
  holdings after = holdings self /\
  trades after = trades self /\
  trade_logs after = trade_logs self.
Proof.
  intros Hcost Hz after. subst after.
  rewrite (buy_division_fails time price quantity reason self Hcost Hz).
  cbn. repeat split. exact Hz.
Qed.

Lemma buy_to_zero_position_fails_witness :
  (of_int 100 * of_int 0 <= available_capital (init (of_int 10000)))%Qc /\
  position (init (of_int 10000)) + 0 = 0 /\
  raised_exn zero_quantity_buy = Some InvalidOperation /\
  last_price (object zero_quantity_buy) = of_int 100 /\
  trade_logs (object zero_quantity_buy) = [].
Proof.
  assert (Hcost :
            (of_int 100 * of_int 0 <=
             available_capital (init (of_int 10000)))%Qc)
    by (vm_compute; discriminate).
  assert (Hz : position (init (of_int 10000)) + 0 = 0) by reflexivity.
  split; [exact Hcost|]. split; [exact Hz|].
  destruct (buy_to_zero_position_fails 1 (of_int 100) 0 ""
              (init (of_int 10000)) Hcost Hz)
    as (Hexn & _ & _ & Hprice & _ & _ & _ & _ & Hlogs).
  split; [exact Hexn|]. split; [exact Hprice | exact Hlogs].
Defined.

(** * The backtest loop *)

(** A [buy] of a positive quantity, at any price, on an object with
    consistent lots: it returns, the lots stay consistent and the cash is
    not overdrawn. *)
Lemma buy_keeps_consistent
    (time : datetime) (price : Decimal) (quantity : Z) (reason : string)
    (self : PositionManager) :
  0 < quantity ->
  holdings_consistent self ->
  exists self',
    buy time price quantity reason self = Returned tt self' /\
    holdings_consistent self' /\
    (solvent self -> solvent self').
Proof.
  intros Hqty [Hlots Hsum].
  pose proof (holdings_quantity_nonneg _ Hlots) as Hnonneg.
  buy_cases time price quantity reason self.
  - exists self. split; [reflexivity | split; [split; assumption | trivial]].
  - lia.
  - eexists. split; [reflexivity|].
    unfold holdings_consistent, solvent. cbn. split; [split|].
    + apply Forall_app. split; [exact Hlots | repeat constructor; exact Hqty].
    + rewrite holdings_quantity_app. cbn. lia.
    + intros _. apply Qcle_0_minus. exact Hguard.
Qed.

(** A sale of the whole position at any price, on an object with
    consistent lots. *)
Lemma sell_all_keeps_consistent
    (time : datetime) (price : Decimal) (reason : string)
    (self : PositionManager) :
  holdings_consistent self ->
  exists self',
    sell time price (position self) reason self = Returned 0 self' /\
    holdings_consistent self' /\
    position self' = 0 /\
    holdings self' = [] /\
    ((0 <= price)%Qc -> solvent self -> solvent self').
Proof.
  intros [Hlots Hsum].
  pose proof (holdings_quantity_nonneg _ Hlots) as Hnonneg.
  rewrite (sell_executed time price (position self) reason self (Z.le_refl _)).
  eexists. split; [reflexivity|].
  destruct (_update_holdings_loop (holdings self) (position self) [] Hlots
              (Forall_nil _)) as [Hall Hrest]; [lia|].
  assert (Hempty :
            snd (fold_left _update_holdings_iter (holdings self)
                   (position self, [])) = []).
  { apply positive_lots_empty; [exact Hall|]. rewrite Hrest. cbn. lia. }
  unfold holdings_consistent, solvent. cbn. rewrite Hempty.
  split; [split; [constructor | cbn; lia]|].
  split; [lia|]. split; [reflexivity|].
  intros Hprice Hcash. apply Qcle_0_plus; [exact Hcash|].
  apply Qcle_0_mult; [exact Hprice|].
  destruct (Z.eq_dec (position self) 0) as [Hz|Hnz].
  - rewrite Hz. apply Qcle_refl.
  - apply Qclt_le_weak, of_int_pos. lia.
Qed.

Lemma set_last_price_consistent (price : Decimal) (self : PositionManager) :
  holdings_consistent self -> holdings_consistent (set_last_price price self).
Proof. intros H. exact H. Qed.

(** One turn of the loop on an object with consistent lots. *)
Lemma main_iteration_invariant (row : Row.t) (pm : PositionManager) :
  holdings_consistent pm ->
  exists pm',
    main_iteration row pm = Returned tt pm' /\
    holdings_consistent pm' /\
    initial_capital pm' = initial_capital pm /\
    ((0 <= Row.price row)%Qc -> solvent pm -> solvent pm') /\
    (forall lower_band upper_band,
        Row.Lower row = Some lower_band ->
        Row.Upper row = Some upper_band ->
        (upper_band < Row.price row)%Qc ->
        position pm' = 0 /\ holdings pm' = []).
Proof.
  intros Hcons. unfold main_iteration, update_price. cbn [and_then].
  pose proof (set_last_price_consistent (Row.price row) pm Hcons) as Hcons0.
  assert (Hsol0 : solvent pm -> solvent (set_last_price (Row.price row) pm))
    by (intros H; exact H).
  assert (Hcap0 : initial_capital (set_last_price (Row.price row) pm) =
                  initial_capital pm) by reflexivity.
  revert Hcons0 Hsol0 Hcap0.
  generalize (set_last_price (Row.price row) pm). intros pm0 Hcons0 Hsol0 Hcap0.
  destruct (Row.Lower row) as [lower_band|];
    [destruct (Row.Upper row) as [upper_band|]|].
  - (* both bands are numbers *)
    assert (Hbuy : exists pm1,
               (if Decimal_ltb (Row.price row) lower_band
                then buy (Row.time row) (Row.price row) 10 "价格低于BOLL下轨" pm0
                else Returned tt pm0) = Returned tt pm1 /\
               holdings_consistent pm1 /\
               initial_capital pm1 = initial_capital pm0 /\
               (solvent pm0 -> solvent pm1)).
    { destruct (Decimal_ltb (Row.price row) lower_band).
      - destruct (buy_keeps_consistent (Row.time row) (Row.price row) 10
                    "价格低于BOLL下轨" pm0 ltac:(lia) Hcons0)
          as (pm1 & Hb & Hc1 & Hs1).
        exists pm1. split; [exact Hb|]. split; [exact Hc1|].
        split; [|exact Hs1].
        change pm1 with (object (Returned tt pm1)). rewrite <- Hb.
        apply (perform_initial_capital
                 (Buy (Row.time row) (Row.price row) 10 "价格低于BOLL下轨")).
      - exists pm0. split; [reflexivity|]. split; [exact Hcons0|].
        split; [reflexivity | trivial]. }
    destruct Hbuy as (pm1 & -> & Hcons1 & Hcap1 & Hsol1). cbn [and_then].
    destruct (Decimal_gtb (Row.price row) upper_band) eqn:Habove.
    + destruct (Z.gtb_spec (position pm1) 0) as [Hpos|Hflat]; cbn [andb].
      * destruct (sell_all_keeps_consistent (Row.time row) (Row.price row)
                    "价格高于BOLL上轨" pm1 Hcons1)
          as (pm2 & Hs & Hc2 & Hp2 & Hh2 & Hs2).
        assert (Hcap2 : initial_capital pm2 = initial_capital pm1).
        { change pm2 with (object (Returned 0 pm2)).
          rewrite <- Hs.
          sell_cases (Row.time row) (Row.price row) (position pm1)
            "价格高于BOLL上轨"%string pm1; reflexivity. }
        rewrite Hs. cbn [discard]. exists pm2.
        split; [reflexivity|]. split; [exact Hc2|].
        split; [congruence|]. split; [auto|].
        intros _ _ _ _ _. split; assumption.
      * exists pm1. split; [reflexivity|]. split; [exact Hcons1|].
        split; [congruence|]. split; [auto|].
        intros _ _ _ _ _. destruct Hcons1 as [Hlots Hsum].
        pose proof (holdings_quantity_nonneg _ Hlots) as Hnonneg.
        assert (Hz : position pm1 = 0) by lia.
        split; [exact Hz|]. apply positive_lots_empty; [exact Hlots | lia].
    + cbn [andb]. exists pm1. split; [reflexivity|]. split; [exact Hcons1|].
      split; [congruence|]. split; [auto|].
      intros l u Hl Hu Hlt. inversion Hu; subst u.
      apply Decimal_gtb_true in Hlt. congruence.
  - exists pm0. split; [reflexivity|]. split; [exact Hcons0|].
    split; [exact Hcap0|]. split; [auto|]. intros l u _ Hu. discriminate.
  - exists pm0. split; [reflexivity|]. split; [exact Hcons0|].
    split; [exact Hcap0|]. split; [auto|]. intros l u Hl. discriminate.
Qed.

Lemma main_iterations_invariant (rows : list Row.t) :
  forall pm : PositionManager,
    holdings_consistent pm ->
    exists pm',
      main_iterations rows pm = Returned tt pm' /\
      holdings_consistent pm' /\
      initial_capital pm' = initial_capital pm /\
      (Forall (fun row => (0 <= Row.price row)%Qc) rows ->
       solvent pm -> solvent pm').
Proof.
  induction rows as [|row rows IH]; intros pm Hcons.
  - exists pm. repeat split; trivial; apply Hcons.
  - destruct (main_iteration_invariant row pm Hcons)
      as (pm1 & Hit & Hcons1 & Hcap1 & Hsol1 & _).
    destruct (IH pm1 Hcons1) as (pm2 & Hrest & Hcons2 & Hcap2 & Hsol2).
    exists pm2. cbn [main_iterations]. rewrite Hit. cbn [and_then].
    split; [exact Hrest|]. split; [exact Hcons2|]. split; [congruence|].
    intros Hprices Hsol. inversion Hprices as [|r rs Hrow Hrows]; subst.
    auto.
Qed.

(** X10. On any data frame, whatever its prices and bands, the loop of
    [main] raises nothing from the ledger; at its end the capital baseline
    is still 10000, the position is not negative, no lot is empty, and
    the lots of [holdings] add up to the position. *)
Theorem main_loop_returns (df : list Row.t) :
  exists pm,
    main_loop df = Returned tt pm /\
    initial_capital pm = of_int 10000 /\
    0 <= position pm /\
    Forall (fun h => 0 < Holding.quantity h) (holdings pm) /\
    holdings_quantity (holdings pm) = position pm.
Proof.
  destruct (main_iterations_invariant (tl df) (init (of_int 10000))
              (init_consistent _))
    as (pm & Hrun & [Hlots Hsum] & Hcap & _).
  exists pm. split; [exact Hrun|]. split; [exact Hcap|].
  pose proof (holdings_quantity_nonneg _ Hlots). repeat split; trivial; lia.
Qed.

(** X11. When no price of the data frame is negative, the loop of [main]
    ends with [available_capital >= 0]. *)
Theorem main_loop_solvent (df : list Row.t) :
  Forall (fun row => (0 <= Row.price row)%Qc) df ->
  exists pm,
    main_loop df = Returned tt pm /\
    (0 <= available_capital pm)%Qc.
Proof.
  intros Hprices.
  destruct (main_iterations_invariant (tl df) (init (of_int 10000))
              (init_consistent _))
    as (pm & Hrun & _ & _ & Hsol).
  exists pm. split; [exact Hrun|]. apply Hsol.
  - destruct df as [|row rows]; [constructor|].
    inversion Hprices; assumption.
  - unfold solvent. cbn. vm_compute. discriminate.
Qed.

Lemma sample_df_prices :
  Forall (fun row => (0 <= Row.price row)%Qc) sample_df.
Proof.
  unfold sample_df.
  repeat (apply Forall_cons || apply Forall_nil); vm_compute; discriminate.
Qed.

Lemma main_loop_solvent_witness :
  Forall (fun row => (0 <= Row.price row)%Qc) sample_df /\
  exists pm,
    main_loop sample_df = Returned tt pm /\
    (0 <= available_capital pm)%Qc.
Proof.
  split; [exact sample_df_prices|].
  apply main_loop_solvent. exact sample_df_prices.
Defined.

(** X12. A turn of the loop on a row whose bands are numbers and whose
    price is above the upper band ends without shares and without open
    lots, also when the same turn has bought first (the price being below
    the lower band too). *)
Theorem main_iteration_flat_above_upper_band
    (row : Row.t) (lower_band upper_band : Decimal) (pm : PositionManager) :
  holdings_consistent pm ->
  Row.Lower row = Some lower_band ->
  Row.Upper row = Some upper_band ->
  (upper_band < Row.price row)%Qc ->
  exists pm',
    main_iteration row pm = Returned tt pm' /\
    position pm' = 0 /\
    holdings pm' = [].
Proof.
  intros Hcons Hlower Hupper Habove.
  destruct (main_iteration_invariant row pm Hcons)
    as (pm' & Hit & _ & _ & _ & Hflat).
  exists pm'. split; [exact Hit|].
  apply (Hflat lower_band upper_band Hlower Hupper Habove).
Qed.

Lemma main_iteration_flat_above_upper_band_witness :
  holdings_consistent (object scenario_A) /\
  Row.Lower (Row.mk 4 (of_int 120) (Some (of_int 110)) (Some (of_int 95))) =
    Some (of_int 95) /\
  Row.Upper (Row.mk 4 (of_int 120) (Some (of_int 110)) (Some (of_int 95))) =
    Some (of_int 110) /\
  (of_int 110 <
   Row.price (Row.mk 4 (of_int 120) (Some (of_int 110)) (Some (of_int 95))))%Qc /\
  exists pm',
    main_iteration
      (Row.mk 4 (of_int 120) (Some (of_int 110)) (Some (of_int 95)))
      (object scenario_A) = Returned tt pm' /\
    position pm' = 0 /\
    holdings pm' = [].
Proof.
  assert (Hcons : holdings_consistent (object scenario_A)).
  { split.
    - cbn. repeat (apply Forall_cons || apply Forall_nil); reflexivity.
    - reflexivity. }
  split; [exact Hcons|]. split; [reflexivity|]. split; [reflexivity|].
  split; [reflexivity|].
  apply (main_iteration_flat_above_upper_band _ (of_int 95) (of_int 110));
    [exact Hcons | reflexivity | reflexivity | reflexivity].
Defined.

(** The sample data frame: the dip buys 10 shares at 90, the spike sells
    them at 120. *)
Example main_loop_sample :
  returned_value (main_loop sample_df) = Some tt /\
  position (object (main_loop sample_df)) = 0 /\
  available_capital (object (main_loop sample_df)) = of_int 10300 /\
  map Trade.quantity (trades (object (main_loop sample_df))) = [10; 10] /\
  get_total_profit (object (main_loop sample_df)) = of_int 300.
Proof.
  repeat split; try reflexivity; decimal_eq.
Qed.

